(** * ZenML integration adapters: a shallow embedding

    Three adapters are embedded here, each from its Python source:

    - [HuggingFace]: [HuggingFaceModelDeployer]
      (huggingface_model_deployer.py),
    - [Xgboost]: [XgboostBoosterMaterializer]
      (xgboost_booster_materializer.py),
    - [TFRecords]: [TFRecordsDatasource] (tfrecords_datasource.py).

    Python [str] is [string]; [os.environ] and the file system are finite
    maps keyed by strings; methods that touch the process environment, the
    artifact store or a remote service are state transformers that return
    either a value or a raised exception. *)

From stdpp Require Import gmap strings list fin_maps.
From Stdlib Require Import ZArith NArith Ascii String.

Open Scope string_scope.

(** ** Python string operations used by the adapters *)

Module PyStr.

(** [s.startswith(p)] *)
Definition startswith (s p : string) : bool := String.prefix p s.

(** [s[:n]] *)
Definition slice_to (n : nat) (s : string) : string := substring 0 n s.

(** [s[i:j]] for [i <= j] *)
Definition slice (i j : nat) (s : string) : string := substring i (j - i) s.

(** [s.endswith(p)], as a proposition *)
Definition endswith (s p : string) : Prop := exists u, s = u ++ p.

Fixpoint last_char (s : string) : option ascii :=
  match s with
  | EmptyString => None
  | String c EmptyString => Some c
  | String _ s' => last_char s'
  end.

Definition sep : string := "/".

Definition ends_with_sep (s : string) : bool :=
  match last_char s with
  | Some c => if ascii_dec c "/" then true else false
  | None => false
  end.

(** [os.path.join(a, b)] of [posixpath], for two components. *)
Definition os_path_join (a b : string) : string :=
  if startswith b sep then b
  else if (String.length a =? 0)%nat || ends_with_sep a then a ++ b
  else a ++ sep ++ b.

(** [s[n:]] *)
Fixpoint slice_from (n : nat) (s : string) : string :=
  match n, s with
  | O, _ => s
  | S _, EmptyString => EmptyString
  | S n', String _ s' => slice_from n' s'
  end.

(** [s.split("/")] *)
Fixpoint split_sep (s : string) : list string :=
  match s with
  | EmptyString => [EmptyString]
  | String c s' =>
      if ascii_dec c "/" then EmptyString :: split_sep s'
      else match split_sep s' with
           | [] => [String c EmptyString]
           | h :: t => String c h :: t
           end
  end.

Fixpoint chars (s : string) : list ascii :=
  match s with
  | EmptyString => []
  | String c s' => c :: chars s'
  end.

End PyStr.

(** ** Calls that return or raise, over a mutable world *)

Module Effects.

(** A raised exception: its class name and its message. *)
Record exn := Exn { exn_class : string; exn_msg : string }.

Inductive result (A : Type) : Type :=
| Ok (a : A)
| Raise (e : exn).
Arguments Ok {A} a.
Arguments Raise {A} e.

(** A statement sequence over a world [W]: the world after it, and
    either its value or the exception that left it. *)
Definition M (W A : Type) : Type := W -> result A * W.

Definition ret {W A} (a : A) : M W A := fun w => (Ok a, w).

(** Sequencing: an exception skips everything after it. *)
Definition bind {W A B} (m : M W A) (k : A -> M W B) : M W B :=
  fun w =>
    match m w with
    | (Ok a, w') => k a w'
    | (Raise e, w') => (Raise e, w')
    end.

(** [try: body finally: cleanup], the shape of a [with] block whose
    context manager releases a resource in [__exit__]: the cleanup runs
    on both exits and the body's outcome is kept. *)
Definition finally {W A} (body : M W A) (cleanup : W -> W) : M W A :=
  fun w => let '(r, w') := body w in (r, cleanup w').

End Effects.

Import Effects.

Declare Scope py_scope.
Delimit Scope py_scope with py.
Notation "'let!' x := m 'in' k" := (bind m (fun x => k))
  (at level 10, x name, m at level 100, k at level 200) : py_scope.
Notation "m ;; k" := (bind m (fun _ => k))
  (at level 100, k at level 200, right associativity) : py_scope.

Open Scope py_scope.

(** ** The Hugging Face model deployer *)

Module HuggingFace.

Import PyStr.

Definition ZENM_ENDPOINT_PREFIX : string := "zenml-".
Definition UUID_SLICE_LENGTH : nat := 8.

(** *** [uuid.UUID] and its string form

    A [UUID] holds a 128-bit integer. [str(id)] is the standard
    library's [UUID.__str__]: the integer formatted with ['%032x'] and
    cut into groups of 8-4-4-4-12 digits joined by hyphens. *)

Record UUID := mkUUID { uuid_int : N }.

Definition hexdigits : string := "0123456789abcdef".

Definition hexdigit (d : N) : ascii :=
  match String.get (N.to_nat d) hexdigits with
  | Some c => c
  | None => "0"%char
  end.

(** ['%0wx' % n] for [n < 16^w]: exactly [w] lowercase digits, most
    significant first. A UUID's integer is below [16^32]. *)
Fixpoint hex_fixed (w : nat) (n : N) : string :=
  match w with
  | O => ""
  | S w' =>
      String (hexdigit ((n / 16 ^ N.of_nat w') mod 16)%N) (hex_fixed w' n)
  end.

Definition UUID_str (id : UUID) : string :=
  let hex := hex_fixed 32 (uuid_int id) in
  slice_to 8 hex ++ "-" ++ slice 8 12 hex ++ "-" ++ slice 12 16 hex
    ++ "-" ++ slice 16 20 hex ++ "-" ++ slice 20 32 hex.

(** *** Configuration and service objects

    Only the attributes the deployer reads or writes are fields; the
    rest of a service configuration travels in [settings]. *)

Record HuggingFaceModelDeployerConfig := {
  token : string;
  namespace : string
}.

Record HuggingFaceServiceConfig := {
  endpoint_name : string;
  settings : list (string * string)
}.

Record HuggingFaceDeploymentService := {
  uuid : UUID;
  config : HuggingFaceServiceConfig
}.

(** [service.config.endpoint_name = name] *)
Definition set_endpoint_name
    (service : HuggingFaceDeploymentService) (name : string)
  : HuggingFaceDeploymentService :=
  {| uuid := uuid service;
     config := {| endpoint_name := name;
                  settings := settings (config service) |} |}.

(** *** The world the deployer acts on

    [environ] is [os.environ]. Every call that leaves the deployer (to
    the artifact store, to the hosting platform, to telemetry) is
    recorded in [calls], oldest first, together with the environment it
    ran in: the hosting SDK reads its credentials from there. *)

Inductive Call :=
| CallSaveArtifact (service : HuggingFaceDeploymentService)
    (name version : string) (is_deployment_artifact : bool)
| CallLogArtifactMetadata (artifact_name artifact_version : string)
    (uuid_text : string) (service_config : HuggingFaceServiceConfig)
| CallServiceStart (service : HuggingFaceDeploymentService) (timeout : Z)
| CallServiceStop (service : HuggingFaceDeploymentService) (timeout : Z)
    (force : bool)
| CallStackMetadata.

Record World := {
  environ : gmap string string;
  calls : list (Call * gmap string string)
}.

Definition HF_TOKEN : string := "HF_TOKEN".
Definition HF_NAMESPACE : string := "HF_NAMESPACE".

Definition set_environ (f : gmap string string -> gmap string string)
    (w : World) : World :=
  {| environ := f (environ w); calls := calls w |}.

Definition record_call (c : Call) (w : World) : World :=
  {| environ := environ w; calls := calls w ++ [(c, environ w)] |}.

Section Deployer.

(** What a call outside the deployer does is not decided here: whether
    it returns or raises is given by [outcome], which may look at the
    call and at the whole world, history included. *)
Variable outcome : Call -> World -> option exn.

(** The name under which service artifacts are stored
    ([zenml.integrations.huggingface.HUGGINGFACE_SERVICE_ARTIFACT]). *)
Variable HUGGINGFACE_SERVICE_ARTIFACT : string.

Variable self : HuggingFaceModelDeployerConfig.

Definition extern (c : Call) : M World unit :=
  fun w =>
    match outcome c w with
    | None => (Ok tt, record_call c w)
    | Some e => (Raise e, record_call c w)
    end.

Definition prepare_environment_variable (set : bool) : M World unit :=
  fun w =>
    if set then
      (Ok tt, set_environ (fun env =>
                 <[HF_NAMESPACE := namespace self]>
                   (<[HF_TOKEN := token self]> env)) w)
    else
      (Ok tt, set_environ (fun env =>
                 delete HF_NAMESPACE (delete HF_TOKEN env)) w).

Definition modify_endpoint_name
    (endpoint_name artifact_version : string) : string :=
  let endpoint_name :=
    if negb (startswith endpoint_name ZENM_ENDPOINT_PREFIX)
    then ZENM_ENDPOINT_PREFIX ++ endpoint_name
    else endpoint_name in
  endpoint_name ++ artifact_version.

Definition _create_new_service
    (id : UUID) (timeout : Z) (config0 : HuggingFaceServiceConfig)
  : M World HuggingFaceDeploymentService :=
  let service := {| uuid := id; config := config0 |} in
  let artifact_version := slice_to UUID_SLICE_LENGTH (UUID_str id) in
  let service :=
    set_endpoint_name service
      (modify_endpoint_name (endpoint_name (config service))
         artifact_version) in
  extern (CallSaveArtifact service HUGGINGFACE_SERVICE_ARTIFACT
            artifact_version true) ;;
  extern (CallLogArtifactMetadata HUGGINGFACE_SERVICE_ARTIFACT
            artifact_version (UUID_str (uuid service))
            (config service)) ;;
  extern (CallServiceStart service timeout) ;;
  ret service.

Definition _clean_up_existing_service
    (timeout : Z) (force : bool)
    (existing_service : HuggingFaceDeploymentService) : M World unit :=
  prepare_environment_variable true ;;
  extern (CallServiceStop existing_service timeout force) ;;
  prepare_environment_variable false.

(** The body of the [track_handler] block. The stack metadata for
    telemetry is read from the client after the credentials are
    cleared; that read is the call [CallStackMetadata]. *)
Definition perform_deploy_model
    (id : UUID) (config0 : HuggingFaceServiceConfig) (timeout : Z)
  : M World HuggingFaceDeploymentService :=
  prepare_environment_variable true ;;
  let! service := _create_new_service id timeout config0 in
  prepare_environment_variable false ;;
  extern CallStackMetadata ;;
  ret service.

Definition perform_stop_model
    (service : HuggingFaceDeploymentService) (timeout : Z) (force : bool)
  : M World HuggingFaceDeploymentService :=
  prepare_environment_variable true ;;
  extern (CallServiceStop service timeout force) ;;
  prepare_environment_variable false ;;
  ret service.

Definition perform_start_model
    (service : HuggingFaceDeploymentService) (timeout : Z)
  : M World HuggingFaceDeploymentService :=
  prepare_environment_variable true ;;
  extern (CallServiceStart service timeout) ;;
  prepare_environment_variable false ;;
  ret service.

Definition perform_delete_model
    (service : HuggingFaceDeploymentService) (timeout : Z) (force : bool)
  : M World unit :=
  prepare_environment_variable true ;;
  _clean_up_existing_service timeout force service ;;
  prepare_environment_variable false.

(** The four lifecycle operations, as one type, so that a statement
    can range over them. *)
Inductive Operation :=
| Deploy (id : UUID) (config0 : HuggingFaceServiceConfig) (timeout : Z)
| Start (service : HuggingFaceDeploymentService) (timeout : Z)
| Stop (service : HuggingFaceDeploymentService) (timeout : Z)
    (force : bool)
| Delete (service : HuggingFaceDeploymentService) (timeout : Z)
    (force : bool).

Definition perform (op : Operation) : M World unit :=
  match op with
  | Deploy id config0 timeout =>
      perform_deploy_model id config0 timeout ;; ret tt
  | Start service timeout => perform_start_model service timeout ;; ret tt
  | Stop service timeout force =>
      perform_stop_model service timeout force ;; ret tt
  | Delete service timeout force =>
      perform_delete_model service timeout force
  end.

(** The environment after [prepare_environment_variable(set=True)]. *)
Definition with_credentials (env : gmap string string)
  : gmap string string :=
  <[HF_NAMESPACE := namespace self]> (<[HF_TOKEN := token self]> env).

(** The service object [_create_new_service] builds, and the three
    calls it makes with it. *)
Definition new_service (id : UUID) (config0 : HuggingFaceServiceConfig)
  : HuggingFaceDeploymentService :=
  set_endpoint_name {| uuid := id; config := config0 |}
    (modify_endpoint_name (endpoint_name config0)
       (slice_to UUID_SLICE_LENGTH (UUID_str id))).

Definition save_call (id : UUID) (config0 : HuggingFaceServiceConfig)
  : Call :=
  CallSaveArtifact (new_service id config0) HUGGINGFACE_SERVICE_ARTIFACT
    (slice_to UUID_SLICE_LENGTH (UUID_str id)) true.

Definition log_call (id : UUID) (config0 : HuggingFaceServiceConfig)
  : Call :=
  CallLogArtifactMetadata HUGGINGFACE_SERVICE_ARTIFACT
    (slice_to UUID_SLICE_LENGTH (UUID_str id)) (UUID_str id)
    (config (new_service id config0)).

Definition start_call (id : UUID) (timeout : Z)
    (config0 : HuggingFaceServiceConfig) : Call :=
  CallServiceStart (new_service id config0) timeout.

(** The environment holds the deployer's credentials. *)
Definition credentials_set (env : gmap string string) : Prop :=
  env !! HF_TOKEN = Some (token self)
  /\ env !! HF_NAMESPACE = Some (namespace self).

End Deployer.

(** Neither credential variable is in the environment. *)
Definition credentials_absent (env : gmap string string) : Prop :=
  env !! HF_TOKEN = None /\ env !! HF_NAMESPACE = None.


(** The calls recorded since the world [w0]. *)
Definition calls_since (w0 w : World) : list (Call * gmap string string) :=
  drop (List.length (calls w0)) (calls w).

(** What a call's outcome makes of the value it would return. *)
Definition outcome_result {A} (o : option exn) (a : A) : result A :=
  match o with None => Ok a | Some e => Raise e end.

Definition is_hex_char (c : ascii) : Prop :=
  exists d : N, (d < 16)%N /\ c = hexdigit d.

(** Concrete inputs: a model UUID, configurations, and three ways the
    outside world can behave. *)
Module Examples.

Definition model_id : UUID :=
  mkUUID 0x123e4567e89b12d3a456426614174000%N.

Definition deployer : HuggingFaceModelDeployerConfig :=
  {| token := "hf_secret"; namespace := "acme" |}.

Definition service_config : HuggingFaceServiceConfig :=
  {| endpoint_name := "sentiment"; settings := [("task", "text")] |}.

Definition service : HuggingFaceDeploymentService :=
  {| uuid := model_id;
     config := {| endpoint_name := "zenml-sentiment123e4567";
                  settings := [("task", "text")] |} |}.

Definition clean_world : World := {| environ := ∅; calls := [] |}.

Definition all_return : Call -> World -> option exn :=
  fun _ _ => None.


Definition stop_fails : Call -> World -> option exn :=
  fun c _ =>
    match c with
    | CallServiceStop _ _ _ =>
        Some (Exn "HfHubHTTPError" "503 Service Unavailable")
    | _ => None
    end.

End Examples.

End HuggingFace.

(** ** Files

    A file system holds byte contents by path and the set of directory
    paths. A path [p] lies inside directory [d] when it extends
    [os.path.join(d, "")], which is [d] with one trailing separator. *)

Module FileSystem.

Import PyStr.

Definition bytes : Type := list Byte.byte.

Record FS := {
  files : gmap string bytes;
  dirs : gset string
}.

Definition inside (d p : string) : bool :=
  startswith p (os_path_join d "").

Definition write_file (p : string) (content : bytes) (fs : FS) : FS :=
  {| files := <[p := content]> (files fs); dirs := dirs fs |}.

Definition unlink (p : string) (fs : FS) : FS :=
  {| files := delete p (files fs); dirs := dirs fs |}.

Definition mkdir (d : string) (fs : FS) : FS :=
  {| files := files fs; dirs := {[d]} ∪ dirs fs |}.

(** [shutil.rmtree(d)]: the directory and everything inside it. *)
Definition rmtree (d : string) (fs : FS) : FS :=
  {| files := filter (fun kv => inside d kv.1 = false) (files fs);
     dirs := filter (fun p => p <> d /\ inside d p = false) (dirs fs) |}.

Definition FileNotFoundError (p : string) : exn :=
  Exn "FileNotFoundError" p.

End FileSystem.

(** ** The XGBoost booster materializer *)

Module Xgboost.

Import PyStr FileSystem.

Definition DEFAULT_FILENAME : string := "model.json".

Section Materializer.

(** [xgb.Booster] is opaque to the materializer. The native library
    is known by what [save_model] writes for a booster and what
    [load_model] makes of a file's content, each of which may raise;
    [predict] is the booster's prediction on an input. *)
Variables Booster DMatrix Prediction : Type.
Variable xgb_save_model : Booster -> result bytes.
Variable xgb_load_model : bytes -> result Booster.
Variable predict : Booster -> DMatrix -> Prediction.

(** The names [tempfile] picks: for [NamedTemporaryFile] given the
    suffix, for [TemporaryDirectory] given the prefix. *)
Variable mkstemp : string -> FS -> string.
Variable mkdtemp : string -> FS -> string.

(** An I/O fault of [fileio.copy], if any, for a source, a
    destination and a file system. *)
Variable copy_fault : string -> string -> FS -> option exn.

(** [self.uri] *)
Variable uri : string.

(** Modelled from the spec: [zenml.io.fileio.copy], which is not part
    of the sources at hand. The spec has it copy the file at [src]
    to [dst] and lets any I/O error propagate; a missing source is
    such an error. *)
Definition fileio_copy (src dst : string) : M FS unit :=
  fun fs =>
    match copy_fault src dst fs with
    | Some e => (Raise e, fs)
    | None =>
        match files fs !! src with
        | Some content => (Ok tt, write_file dst content fs)
        | None => (Raise (FileNotFoundError src), fs)
        end
    end.

(** [booster.save_model(fname)] *)
Definition save_model (booster : Booster) (fname : string) : M FS unit :=
  fun fs =>
    match xgb_save_model booster with
    | Ok content => (Ok tt, write_file fname content fs)
    | Raise e => (Raise e, fs)
    end.

(** [booster = xgb.Booster(); booster.load_model(fname)] *)
Definition load_model (fname : string) : M FS Booster :=
  fun fs =>
    match files fs !! fname with
    | Some content => (xgb_load_model content, fs)
    | None => (Raise (FileNotFoundError fname), fs)
    end.

(** [with tempfile.TemporaryDirectory(prefix=...) as temp_dir: body] *)
Definition with_TemporaryDirectory {A} (prefix : string)
    (body : string -> M FS A) : M FS A :=
  fun fs =>
    let temp_dir := mkdtemp prefix fs in
    finally (body temp_dir) (rmtree temp_dir) (mkdir temp_dir fs).

(** [with tempfile.NamedTemporaryFile(mode="w", suffix=...) as f: body],
    the body being given [f.name]. *)
Definition with_NamedTemporaryFile {A} (suffix : string)
    (body : string -> M FS A) : M FS A :=
  fun fs =>
    let name := mkstemp suffix fs in
    finally (body name) (unlink name) (write_file name [] fs).

Definition load : M FS Booster :=
  let filepath := os_path_join uri DEFAULT_FILENAME in
  with_TemporaryDirectory "zenml-temp-" (fun temp_dir =>
    let temp_file := os_path_join temp_dir DEFAULT_FILENAME in
    fileio_copy filepath temp_file ;;
    let! booster := load_model temp_file in
    ret booster).

Definition save (booster : Booster) : M FS unit :=
  let filepath := os_path_join uri DEFAULT_FILENAME in
  with_NamedTemporaryFile ".json" (fun f_name =>
    save_model booster f_name ;;
    fileio_copy f_name filepath).

End Materializer.

Arguments save_model {Booster}.
Arguments load_model {Booster}.
Arguments load {Booster}.
Arguments save {Booster}.

(** Concrete inputs: a booster that is its own JSON text, predictions
    that read it, fixed temporary names and no I/O faults. *)
Module Examples.

Definition Booster : Type := bytes.

Definition xgb_save_model (b : Booster) : result bytes := Ok b.

Definition xgb_load_model (content : bytes) : result Booster :=
  Ok content.


Definition mkstemp (suffix : string) (_ : FS) : string :=
  "/tmp/tmpk3v9q2xd" ++ suffix.

Definition mkdtemp (prefix : string) (_ : FS) : string :=
  "/tmp/" ++ prefix ++ "w8r1m5zt".

Definition no_fault (_ _ : string) (_ : FS) : option exn := None.

Definition uri : string := "/artifacts/model/7".

Definition booster : Booster := [Byte.x7b; Byte.x7d].

Definition store : FS :=
  {| files := <["/artifacts/readme" := [Byte.x21]]> ∅;
     dirs := {["/artifacts"; "/artifacts/model/7"]} |}.

End Examples.

End Xgboost.

(** ** The TFRecords datasource *)

Module TFRecords.

Import PyStr FileSystem.

Record TFRecordsDatasource := {
  name : string;
  path : string;
  schema : option (list (string * string))
}.

Definition __init__ (name0 path0 : string)
    (schema0 : option (list (string * string))) : TFRecordsDatasource :=
  {| name := name0; path := path0; schema := schema0 |}.

(** *** [str(Path(p).resolve())]

    [pathlib] on POSIX, on a file system without symbolic links: a
    relative path is taken from the working directory; empty and ["."]
    components are dropped, [".."] leaves the directory above (the root
    is its own parent); the result starts with one slash. *)

Definition resolve_step (stack : list string) (c : string) : list string :=
  if String.eqb c "" || String.eqb c "." then stack
  else if String.eqb c ".." then tail stack
  else c :: stack.

Definition normalize (components : list string) : list string :=
  rev (fold_left resolve_step components []).

Section Datasource.

(** [os.getcwd()] *)
Variable cwd : string.

Definition resolve (p : string) : string :=
  if startswith p "/"
  then "/" ++ String.concat "/" (normalize (split_sep p))
  else "/" ++ String.concat "/" (normalize (split_sep cwd ++ split_sep p)).

(** Where the file at [k] inside [source_dir] goes: the same relative
    path inside [destination_dir]. *)
Definition target (source_dir destination_dir k : string) : string :=
  os_path_join destination_dir ""
    ++ slice_from (String.length (os_path_join source_dir "")) k.

(** Modelled from the spec: [zenml.utils.path_utils.copy_dir], which is
    not part of the sources at hand. The spec has it copy the full
    contents of the source directory recursively to the destination:
    every file inside it, at the same relative path and with the same
    bytes, and every directory inside it; nothing is filtered or
    transformed. *)
Definition copy_dir (source_dir destination_dir : string) : M FS unit :=
  fun fs =>
    (Ok tt,
     {| files :=
          map_fold (fun k content acc =>
                      if inside source_dir k
                      then <[target source_dir destination_dir k
                               := content]> acc
                      else acc)
            (files fs) (files fs);
        dirs :=
          {[destination_dir]}
            ∪ set_map (target source_dir destination_dir)
                (filter (fun d => inside source_dir d = true) (dirs fs))
            ∪ dirs fs |}).

Definition process (self : TFRecordsDatasource) (output_path : string)
  : M FS unit :=
  let p := resolve (path self) in
  copy_dir p output_path.

End Datasource.

(** Concrete inputs: a datasource given by a relative path and a file
    system with two record files under it and one file elsewhere. *)
Module Examples.

Definition datasource : TFRecordsDatasource :=
  __init__ "records" "data/../recs" (Some [("label", "int")]).

Definition disk : FS :=
  {| files :=
       <["/home/u/recs/a/x.tfrecord" := [Byte.x01]]>
         (<["/home/u/recs/y.tfrecord" := [Byte.x02]]>
            (<["/home/u/other" := [Byte.x03]]> ∅));
     dirs := {["/home/u/recs"; "/home/u/recs/a"]} |}.

End Examples.

End TFRecords.

(** ** Further concrete inputs *)

Module Scenarios.

Import HuggingFace FileSystem.

(** A second model UUID with the same leading 32 bits as
    [Examples.model_id]. *)
Definition sibling_id : UUID :=
  mkUUID 0x123e4567000000000000000000000001%N.

(** A process environment that already holds a token of the user's own
    and an unrelated variable. *)
Definition busy_world : World :=
  {| environ := <["HF_TOKEN" := "users_own"]> (<["PATH" := "/usr/bin"]> ∅);
     calls := [] |}.


(** A native serializer that rejects every booster. *)
Definition save_model_fails (_ : bytes) : result bytes :=
  Raise (Exn "XGBoostError" "cannot serialize").

End Scenarios.

(** * Properties *)

(** ** Strings *)

Module PyStrFacts.

Import PyStr.

(** [String.append] does not unfold under [simpl] here; its two
    equations are used as rewrite rules instead. *)
Lemma append_nil_l s : "" ++ s = s.
Proof. reflexivity. Qed.

Lemma append_cons c s t : String c s ++ t = String c (s ++ t).
Proof. reflexivity. Qed.

Lemma append_nil_r s : s ++ "" = s.
Proof.
  induction s as [|c s IH]; [reflexivity |].
  now rewrite append_cons, IH.
Qed.

Lemma append_assoc s t u : (s ++ t) ++ u = s ++ t ++ u.
Proof.
  induction s as [|c s IH]; [reflexivity |].
  now rewrite !append_cons, IH.
Qed.

Lemma startswith_append p s : startswith (p ++ s) p = true.
Proof.
  unfold startswith. induction p as [|c p IH].
  - now destruct s.
  - rewrite append_cons. simpl.
    destruct (ascii_dec c c) as [_|N]; [exact IH | now destruct N].
Qed.

Lemma startswith_append_r p s t :
  startswith s p = true -> startswith (s ++ t) p = true.
Proof.
  unfold startswith. revert s. induction p as [|c p IH]; intros s H.
  - now destruct (s ++ t).
  - destruct s as [|d s]; simpl in H; [discriminate |].
    rewrite append_cons. simpl.
    destruct (ascii_dec c d); [now apply IH | discriminate].
Qed.

(** A string that starts with [p] is [p] followed by something. *)
Lemma startswith_split p s :
  startswith s p = true -> exists r, s = p ++ r.
Proof.
  unfold startswith. revert s. induction p as [|c p IH]; intros s H.
  - now exists s.
  - destruct s as [|d s]; simpl in H; [discriminate |].
    destruct (ascii_dec c d) as [->|]; [| discriminate].
    destruct (IH _ H) as [r ->]. now exists r.
Qed.

Lemma slice_to_append n p s :
  String.length p = n -> slice_to n (p ++ s) = p.
Proof.
  unfold slice_to. revert n. induction p as [|c p IH]; intros n <-.
  - now destruct s.
  - rewrite append_cons. simpl. f_equal. now apply IH.
Qed.

Lemma append_inj_l p s t : p ++ s = p ++ t -> s = t.
Proof.
  induction p as [|c p IH]; intros H; [exact H |].
  rewrite !append_cons in H. injection H as H. now apply IH.
Qed.

Lemma slice_from_append p s : slice_from (String.length p) (p ++ s) = s.
Proof. induction p as [|c p IH]; [now destruct s | exact IH]. Qed.

Lemma endswith_append s p : endswith (s ++ p) p.
Proof. now exists s. Qed.

(** Joining a relative name onto a directory extends the directory's
    own prefix [os.path.join(d, "")]. *)
Lemma os_path_join_relative d b :
  startswith b sep = false -> os_path_join d b = os_path_join d "" ++ b.
Proof.
  intros Hb. unfold os_path_join. rewrite Hb.
  change (startswith "" sep) with false. cbv iota.
  destruct ((String.length d =? 0)%nat || ends_with_sep d).
  - now rewrite append_nil_r.
  - now rewrite append_nil_r, append_assoc.
Qed.

End PyStrFacts.

(** ** The Hugging Face model deployer *)

Module HuggingFaceFacts.

Import PyStr PyStrFacts HuggingFace.

Lemma modify_endpoint_name_eq n v :
  modify_endpoint_name n v =
    (if startswith n ZENM_ENDPOINT_PREFIX then n
     else ZENM_ENDPOINT_PREFIX ++ n) ++ v.
Proof.
  unfold modify_endpoint_name.
  now destruct (startswith n ZENM_ENDPOINT_PREFIX).
Qed.

Lemma modify_endpoint_name_startswith n v :
  startswith (modify_endpoint_name n v) ZENM_ENDPOINT_PREFIX = true.
Proof.
  rewrite modify_endpoint_name_eq.
  destruct (startswith n ZENM_ENDPOINT_PREFIX) eqn:E.
  - now apply startswith_append_r.
  - rewrite append_assoc. apply startswith_append.
Qed.

(** C2. [modify_endpoint_name] applied twice with the same artifact
    version: the second application finds the prefix in place and
    prepends nothing, so the name carries the one prefix the first
    application ensured, while the version is appended by both, so the
    name ends with the version twice. *)
Theorem modify_endpoint_name_twice (n v : string) :
  let once := modify_endpoint_name n v in
  let twice := modify_endpoint_name once v in
  startswith once ZENM_ENDPOINT_PREFIX = true
  /\ twice = once ++ v
  /\ twice =
       (if startswith n ZENM_ENDPOINT_PREFIX then n
        else ZENM_ENDPOINT_PREFIX ++ n) ++ v ++ v
  /\ startswith twice ZENM_ENDPOINT_PREFIX = true
  /\ endswith twice (v ++ v).
Proof.
  intros once twice.
  assert (H1 : startswith once ZENM_ENDPOINT_PREFIX = true)
    by apply modify_endpoint_name_startswith.
  assert (H2 : twice = once ++ v).
  { unfold twice. rewrite modify_endpoint_name_eq. now rewrite H1. }
  assert (H3 : twice =
       (if startswith n ZENM_ENDPOINT_PREFIX then n
        else ZENM_ENDPOINT_PREFIX ++ n) ++ v ++ v).
  { rewrite H2. unfold once. rewrite modify_endpoint_name_eq.
    apply append_assoc. }
  repeat split; try assumption.
  - apply modify_endpoint_name_startswith.
  - rewrite H3. apply endswith_append.
Qed.

Lemma deleted_absent (env : gmap string string) :
  credentials_absent (delete HF_NAMESPACE (delete HF_TOKEN env)).
Proof.
  split.
  - rewrite lookup_delete_ne by discriminate. apply lookup_delete_eq.
  - apply lookup_delete_eq.
Qed.

Lemma delete_absent_id (env : gmap string string) :
  credentials_absent env ->
  delete HF_NAMESPACE (delete HF_TOKEN env) = env.
Proof.
  intros [Ht Hn]. apply map_eq. intros k.
  rewrite !lookup_delete.
  repeat case_decide; subst; congruence.
Qed.

(** C10. Clearing the credentials never raises, whatever the
    environment holds; it leaves the recorded calls alone; doing it
    again changes nothing; and after one or more clearings in a row
    neither variable is in the environment. *)
Theorem prepare_environment_variable_unset_total
    (self : HuggingFaceModelDeployerConfig) (w : World) (n : nat) :
  let unset := prepare_environment_variable self false in
  (unset w).1 = Ok tt
  /\ calls (unset w).2 = calls w
  /\ (unset (unset w).2).2 = (unset w).2
  /\ credentials_absent
       (environ (Nat.iter (S n) (fun w' => (unset w').2) w)).
Proof.
  intros unset. repeat split.
  - unfold unset, prepare_environment_variable, set_environ; simpl.
    f_equal. apply delete_absent_id, deleted_absent.
  - simpl. apply deleted_absent.
  - simpl. apply deleted_absent.
Qed.

End HuggingFaceFacts.

(** ** The deployer's lifecycle operations *)

Module HuggingFaceLifecycle.

Import PyStr PyStrFacts HuggingFace HuggingFaceFacts.

(** *** The artifact version *)

Lemma hexdigit_is_hex (x : N) : is_hex_char (hexdigit (x mod 16)%N).
Proof. exists (x mod 16)%N. split; [now apply N.mod_lt | reflexivity]. Qed.

Lemma hex_fixed_chars w n : Forall is_hex_char (chars (hex_fixed w n)).
Proof.
  induction w as [|w IH]; simpl; constructor;
    [apply hexdigit_is_hex | exact IH].
Qed.

Lemma hex_fixed_length w n : String.length (hex_fixed w n) = w.
Proof. induction w as [|w IH]; simpl; [reflexivity | now rewrite IH]. Qed.

(** The first eight characters of [str(id)] are the hexadecimal digits
    of the integer's top 32 bits. *)
Lemma artifact_version_hex id :
  slice_to UUID_SLICE_LENGTH (UUID_str id)
  = hex_fixed 8 (uuid_int id / 16 ^ 24)%N.
Proof.
  destruct id as [n]. unfold UUID_str, UUID_SLICE_LENGTH. cbn [uuid_int].
  set (hex := hex_fixed 32 n).
  assert (Hlen : String.length (slice_to 8 hex) = 8%nat) by reflexivity.
  rewrite slice_to_append by exact Hlen.
  unfold hex. cbn [hex_fixed slice_to substring].
  rewrite !N.Div0.div_div.
  repeat (f_equal; try reflexivity).
Qed.

(** *** Running the operations *)

Section Runs.

Variable outcome : Call -> World -> option exn.
Variable ARTIFACT : string.
Variable self : HuggingFaceModelDeployerConfig.

Lemma with_credentials_set env : credentials_set self (with_credentials self env).
Proof.
  split; unfold with_credentials.
  - rewrite lookup_insert_ne by discriminate. apply lookup_insert_eq.
  - apply lookup_insert_eq.
Qed.

Lemma with_credentials_idem env :
  with_credentials self (with_credentials self env)
  = with_credentials self env.
Proof.
  apply map_eq. intros k. unfold with_credentials.
  rewrite !lookup_insert. repeat case_decide; congruence.
Qed.

(** [_create_new_service], call by call. *)
Lemma create_new_service_run id timeout config0 w :
  let save_call := save_call ARTIFACT in
  let log_call := log_call ARTIFACT in
  let w1 := record_call (save_call id config0) w in
  let w2 := record_call (log_call id config0) w1 in
  let w3 := record_call (start_call id timeout config0) w2 in
  _create_new_service outcome ARTIFACT id timeout config0 w =
    match outcome (save_call id config0) w with
    | Some e => (Raise e, w1)
    | None =>
        match outcome (log_call id config0) w1 with
        | Some e => (Raise e, w2)
        | None =>
            (outcome_result
               (outcome (start_call id timeout config0) w2)
               (new_service id config0), w3)
        end
    end.
Proof.
  unfold _create_new_service, bind, extern, ret, outcome_result,
    save_call, log_call, start_call, new_service.
  cbn [config uuid set_endpoint_name].
  repeat match goal with
         | |- context [match outcome ?c ?w0 with _ => _ end] =>
             destruct (outcome c w0)
         end; reflexivity.
Qed.

Ltac run_ops :=
  unfold perform, perform_deploy_model, perform_start_model,
    perform_stop_model, perform_delete_model,
    _clean_up_existing_service, _create_new_service,
    bind, ret, extern, prepare_environment_variable, calls_since;
  cbn [config uuid set_endpoint_name];
  repeat match goal with
         | |- context [match outcome ?c ?w0 with _ => _ end] =>
             destruct (outcome c w0)
         end;
  cbn [calls environ record_call set_environ fst snd].





(** C1. The artifact version is the first eight characters of the
    UUID's string form; these are eight hexadecimal digits, those of
    the integer's top 32 bits. The artifact is saved under that
    version, and the endpoint name of the saved, and returned,
    service is [modify_endpoint_name] of the original name and that
    same version, so it ends with it. For a UUID whose string form
    starts with 123e4567-e89b- and a name without the prefix, the
    version is 123e4567 and the name is zenml-, the original name,
    123e4567. *)
Theorem artifact_version_is_uuid_prefix
    (id : UUID) (timeout : Z) (config0 : HuggingFaceServiceConfig)
    (w : World) :
  let version := slice_to UUID_SLICE_LENGTH (UUID_str id) in
  let run := _create_new_service outcome ARTIFACT id timeout config0 w in
  let name := endpoint_name (config (new_service id config0)) in
  version = hex_fixed 8 (uuid_int id / 16 ^ 24)%N
  /\ String.length version = 8%nat
  /\ Forall is_hex_char (chars version)
  /\ calls_since w run.2 !! 0%nat
       = Some (CallSaveArtifact (new_service id config0) ARTIFACT
                 version true, environ w)
  /\ name = modify_endpoint_name (endpoint_name config0) version
  /\ endswith name version
  /\ match run.1 with
     | Ok service => service = new_service id config0
     | Raise _ => True
     end
  /\ (startswith (UUID_str id) "123e4567-e89b-" = true ->
      startswith (endpoint_name config0) ZENM_ENDPOINT_PREFIX = false ->
      version = "123e4567"
      /\ name = "zenml-" ++ endpoint_name config0 ++ "123e4567").
Proof.
  intros version run name.
  assert (Hhex : version = hex_fixed 8 (uuid_int id / 16 ^ 24)%N)
    by apply artifact_version_hex.
  assert (Hname : name
                  = modify_endpoint_name (endpoint_name config0) version)
    by reflexivity.
  split; [exact Hhex |].
  split; [rewrite Hhex; apply hex_fixed_length |].
  split; [rewrite Hhex; apply hex_fixed_chars |].
  split.
  { subst run. rewrite create_new_service_run. unfold calls_since.
    destruct (outcome (save_call ARTIFACT id config0) w);
      [| destruct (outcome (log_call ARTIFACT id config0) _)];
      cbn [snd calls record_call];
      rewrite <- ?app_assoc, drop_app_length; reflexivity. }
  split; [exact Hname |].
  split.
  { rewrite Hname, modify_endpoint_name_eq. apply endswith_append. }
  split.
  { subst run. rewrite create_new_service_run.
    destruct (outcome (save_call ARTIFACT id config0) w);
      [exact I |].
    destruct (outcome (log_call ARTIFACT id config0) _); [exact I |].
    cbn [fst]. now destruct (outcome _ _). }
  intros Hid Hn.
  assert (Hv : version = "123e4567").
  { destruct (startswith_split _ _ Hid) as [r Hr].
    unfold version. rewrite Hr. reflexivity. }
  split; [exact Hv |].
  rewrite Hname, modify_endpoint_name_eq, Hn, Hv.
  apply append_assoc.
Qed.


End Runs.

Import Examples.


Lemma artifact_version_example :
  slice_to UUID_SLICE_LENGTH (UUID_str model_id) = "123e4567"
  /\ endpoint_name (config (new_service model_id service_config))
    = "zenml-" ++ endpoint_name service_config ++ "123e4567".
Proof.
  apply (artifact_version_is_uuid_prefix all_return "hf_service"
           model_id 300%Z service_config clean_world);
    reflexivity.
Defined.



End HuggingFaceLifecycle.

(** ** The XGBoost booster materializer *)

Module XgboostFacts.

Import PyStr PyStrFacts FileSystem Xgboost.

Lemma FS_eq (a b : FS) : files a = files b -> dirs a = dirs b -> a = b.
Proof. destruct a, b. cbn. now intros -> ->. Qed.

Lemma join_inside d b :
  startswith b sep = false -> inside d (os_path_join d b) = true.
Proof.
  intros Hb. unfold inside. rewrite (os_path_join_relative d b Hb).
  apply startswith_append.
Qed.

Lemma rmtree_files_insert d p content fs :
  inside d p = true ->
  files (rmtree d (write_file p content fs)) = files (rmtree d fs).
Proof.
  intros Hin. unfold rmtree, write_file. cbn [files].
  apply map_filter_insert_not. intros y. cbn [fst]. congruence.
Qed.

Lemma rmtree_dirs_mkdir d fs :
  dirs (rmtree d (mkdir d fs)) = dirs (rmtree d fs).
Proof.
  unfold rmtree, mkdir. cbn [dirs]. apply set_eq. intros x.
  rewrite !elem_of_filter, elem_of_union, elem_of_singleton. tauto.
Qed.

Lemma rmtree_dir_gone d fs : d ∉ dirs (rmtree d fs).
Proof.
  unfold rmtree. cbn [dirs]. rewrite elem_of_filter. tauto.
Qed.

Lemma rmtree_files_gone d fs :
  map_Forall (fun p _ => inside d p = false) (files (rmtree d fs)).
Proof.
  intros p content H. unfold rmtree in H. cbn [files] in H.
  apply map_lookup_filter_Some in H. exact (proj2 H).
Qed.

Section Runs.

Variables Booster DMatrix Prediction : Type.
Variable xgb_save_model : Booster -> result bytes.
Variable xgb_load_model : bytes -> result Booster.
Variable predict : Booster -> DMatrix -> Prediction.
Variable mkstemp : string -> FS -> string.
Variable mkdtemp : string -> FS -> string.
Variable copy_fault : string -> string -> FS -> option exn.
Variable uri : string.

Abbreviation load := (load xgb_load_model mkdtemp copy_fault uri).
Abbreviation save := (save xgb_save_model mkstemp copy_fault uri).

(** [load], outcome and final file system. *)
Lemma load_run fs :
  let filepath := os_path_join uri DEFAULT_FILENAME in
  let temp_dir := mkdtemp "zenml-temp-" fs in
  let temp_file := os_path_join temp_dir DEFAULT_FILENAME in
  load fs =
    (match copy_fault filepath temp_file (mkdir temp_dir fs) with
     | Some e => Raise e
     | None =>
         match files fs !! filepath with
         | Some content => xgb_load_model content
         | None => Raise (FileNotFoundError filepath)
         end
     end,
     rmtree temp_dir fs).
Proof.
  intros filepath temp_dir temp_file.
  unfold Xgboost.load, with_TemporaryDirectory, finally, bind, ret,
    fileio_copy, load_model.
  fold filepath temp_dir temp_file.
  assert (Hin : inside temp_dir temp_file = true)
    by (apply join_inside; reflexivity).
  assert (Hrm : rmtree temp_dir (mkdir temp_dir fs) = rmtree temp_dir fs).
  { apply FS_eq; [reflexivity | apply rmtree_dirs_mkdir]. }
  destruct (copy_fault filepath temp_file (mkdir temp_dir fs)).
  { now rewrite Hrm. }
  cbn [files mkdir].
  destruct (files fs !! filepath) as [content|].
  2: { now rewrite Hrm. }
  cbn [files write_file]. rewrite lookup_insert_eq.
  assert (Hfs : rmtree temp_dir
                  (write_file temp_file content (mkdir temp_dir fs))
                = rmtree temp_dir fs).
  { rewrite <- Hrm. apply FS_eq; [| reflexivity].
    now apply rmtree_files_insert. }
  fold (mkdir temp_dir fs).
  fold (write_file temp_file content (mkdir temp_dir fs)).
  destruct (xgb_load_model content); now rewrite Hfs.
Qed.

(** [save], outcome and final file system. *)
Lemma save_run booster fs :
  let filepath := os_path_join uri DEFAULT_FILENAME in
  let f_name := mkstemp ".json" fs in
  save booster fs =
    match xgb_save_model booster with
    | Raise e => (Raise e, unlink f_name (write_file f_name [] fs))
    | Ok content =>
        let fs2 := write_file f_name content (write_file f_name [] fs) in
        match copy_fault f_name filepath fs2 with
        | Some e => (Raise e, unlink f_name fs2)
        | None =>
            (Ok tt, unlink f_name (write_file filepath content fs2))
        end
    end.
Proof.
  intros filepath f_name.
  unfold Xgboost.save, with_NamedTemporaryFile, finally, bind,
    save_model, fileio_copy.
  fold filepath f_name.
  destruct (xgb_save_model booster) as [content|e]; [| reflexivity].
  cbv zeta.
  destruct (copy_fault f_name filepath _); [reflexivity |].
  cbn [files write_file]. now rewrite lookup_insert_eq.
Qed.

Lemma unlink_temp f_name content fs :
  unlink f_name (write_file f_name content (write_file f_name [] fs))
  = unlink f_name fs.
Proof.
  apply FS_eq; [| reflexivity]. unfold unlink, write_file. cbn [files].
  now rewrite !delete_insert_eq.
Qed.

(** C6. [load] leaves the file system as it was but for the
    temporary directory, which is gone with everything inside it,
    whether the copy or the native loader raised or not; [save]
    leaves no file at the temporary name, and when it raises, the
    file system is as before but for that name. The result of each
    is the first error met, as raised: by the copy, by a missing
    source file, or by the native library; nothing is tried again. *)
Theorem temporaries_released (booster : Booster) (fs : FS) :
  let filepath := os_path_join uri DEFAULT_FILENAME in
  let temp_dir := mkdtemp "zenml-temp-" fs in
  let temp_file := os_path_join temp_dir DEFAULT_FILENAME in
  let f_name := mkstemp ".json" fs in
  let l := load fs in
  let s := save booster fs in
  ((temp_dir ∉ dirs (l.2))
   /\ map_Forall (fun p _ => inside temp_dir p = false) (files l.2)
   /\ l.2 = rmtree temp_dir fs
   /\ l.1 = match copy_fault filepath temp_file (mkdir temp_dir fs) with
            | Some e => Raise e
            | None =>
                match files fs !! filepath with
                | Some content => xgb_load_model content
                | None => Raise (FileNotFoundError filepath)
                end
            end)
  /\ (files s.2 !! f_name = None
      /\ dirs s.2 = dirs fs
      /\ s.1 = match xgb_save_model booster with
               | Raise e => Raise e
               | Ok content =>
                   match copy_fault f_name filepath
                           (write_file f_name content
                              (write_file f_name [] fs)) with
                   | Some e => Raise e
                   | None => Ok tt
                   end
               end
      /\ match s.1 with
         | Raise _ => s.2 = unlink f_name fs
         | Ok _ => True
         end).
Proof.
  intros filepath temp_dir temp_file f_name l s. split.
  - subst l. rewrite load_run. cbn [fst snd].
    fold filepath temp_dir temp_file.
    split; [apply rmtree_dir_gone |].
    split; [apply rmtree_files_gone |].
    split; reflexivity.
  - subst s. rewrite save_run. fold filepath f_name.
    destruct (xgb_save_model booster) as [content|e].
    + cbv zeta.
      destruct (copy_fault f_name filepath _); cbn [fst snd].
      * split; [apply lookup_delete_eq |].
        split; [reflexivity |]. split; [reflexivity |].
        apply unlink_temp.
      * split; [apply lookup_delete_eq |]. now repeat split.
    + cbn [fst snd].
      split; [apply lookup_delete_eq |].
      split; [reflexivity |]. split; [reflexivity |].
      apply FS_eq; [| reflexivity]. unfold unlink, write_file.
      cbn [files]. apply delete_insert_eq.
Qed.


End Runs.

Import Examples.


End XgboostFacts.

(** ** The TFRecords datasource *)

Module TFRecordsFacts.

Import PyStr PyStrFacts FileSystem TFRecords.

(** The resolved path is absolute. *)
Lemma resolve_absolute cwd p : startswith (resolve cwd p) "/" = true.
Proof.
  unfold resolve. destruct (startswith p "/"); apply startswith_append.
Qed.

Lemma inside_split d k :
  inside d k = true -> exists rel, k = os_path_join d "" ++ rel.
Proof. apply startswith_split. Qed.

Lemma target_relative src dst rel :
  target src dst (os_path_join src "" ++ rel) = os_path_join dst "" ++ rel.
Proof. unfold target. now rewrite slice_from_append. Qed.

Lemma target_inj src dst k1 k2 :
  inside src k1 = true -> inside src k2 = true ->
  target src dst k1 = target src dst k2 -> k1 = k2.
Proof.
  intros H1 H2 Heq.
  destruct (inside_split _ _ H1) as [r1 ->].
  destruct (inside_split _ _ H2) as [r2 ->].
  rewrite !target_relative in Heq.
  now rewrite (append_inj_l _ _ _ Heq).
Qed.

(** Every file of [m] inside the source is at its target after the
    fold, whatever the fold started from. *)
Lemma copy_fold_lookup src dst (b m : gmap string bytes) k content :
  m !! k = Some content -> inside src k = true ->
  map_fold (fun k content acc =>
              if inside src k then <[target src dst k := content]> acc
              else acc) b m
    !! target src dst k = Some content.
Proof.
  revert k content.
  apply (map_fold_weak_ind
           (fun r m => forall k content,
                m !! k = Some content -> inside src k = true ->
                r !! target src dst k = Some content)).
  - intros k content H. now rewrite lookup_empty in H.
  - intros i x m0 r Hi IH k content Hk Hin.
    destruct (decide (i = k)) as [->|Hne].
    + rewrite lookup_insert_eq in Hk. injection Hk as ->.
      rewrite Hin. apply lookup_insert_eq.
    + rewrite lookup_insert_ne in Hk by exact Hne.
      destruct (inside src i) eqn:Hi_in; [| now apply IH].
      rewrite lookup_insert_ne; [now apply IH |].
      intros Heq. apply Hne. now apply (target_inj src dst).
Qed.

(** C7. [process] resolves the configured path, which gives an
    absolute path, and copies that directory to the output path: it
    returns, and every file found at a relative path inside the
    resolved source directory is, with the same bytes, at the same
    relative path inside the output directory. *)
Theorem process_copies_directory
    (cwd : string) (self : TFRecordsDatasource) (output_path : string)
    (fs : FS) (rel : string) (content : bytes) :
  let source := resolve cwd (path self) in
  let run := process cwd self output_path fs in
  files fs !! (os_path_join source "" ++ rel) = Some content ->
  run = copy_dir source output_path fs
  /\ startswith source "/" = true
  /\ run.1 = Ok tt
  /\ files run.2 !! (os_path_join output_path "" ++ rel) = Some content.
Proof.
  intros source run Hfile.
  split; [reflexivity |].
  split; [apply resolve_absolute |].
  split; [reflexivity |].
  rewrite <- (target_relative source output_path rel).
  apply copy_fold_lookup; [exact Hfile |].
  apply startswith_append.
Qed.

(** C9. Two datasources that differ only in their schema: [process]
    returns the same outcome and leaves the same file system. *)
Theorem schema_is_inert
    (cwd name0 path0 : string)
    (schema1 schema2 : option (list (string * string)))
    (output_path : string) (fs : FS) :
  process cwd (__init__ name0 path0 schema1) output_path fs
  = process cwd (__init__ name0 path0 schema2) output_path fs.
Proof. reflexivity. Qed.

Import Examples.

Lemma process_copies_directory_example :
  process "/home/u" datasource "/out" disk
  = copy_dir (resolve "/home/u" (path datasource)) "/out" disk
  /\ startswith (resolve "/home/u" (path datasource)) "/" = true
  /\ (process "/home/u" datasource "/out" disk).1 = Ok tt
  /\ files (process "/home/u" datasource "/out" disk).2
       !! (os_path_join "/out" "" ++ "a/x.tfrecord") = Some [Byte.x01].
Proof.
  apply (process_copies_directory "/home/u" datasource "/out" disk
           "a/x.tfrecord" [Byte.x01]).
  reflexivity.
Defined.

End TFRecordsFacts.

(** ** The deployer's operations, further properties *)

Module HuggingFaceOperations.

Import PyStr PyStrFacts HuggingFace HuggingFaceFacts HuggingFaceLifecycle.

Lemma World_eq (a b : World) :
  environ a = environ b -> calls a = calls b -> a = b.
Proof. destruct a, b. cbn. now intros -> ->. Qed.



Lemma with_credentials_other self (env : gmap string string) k :
  k <> HF_TOKEN -> k <> HF_NAMESPACE ->
  with_credentials self env !! k = env !! k.
Proof.
  intros Ht Hn. unfold with_credentials.
  now rewrite !lookup_insert_ne by congruence.
Qed.

Lemma unset_other (env : gmap string string) k :
  k <> HF_TOKEN -> k <> HF_NAMESPACE ->
  delete HF_NAMESPACE (delete HF_TOKEN env) !! k = env !! k.
Proof. intros Ht Hn. now rewrite !lookup_delete_ne by congruence. Qed.

(** The version depends on the integer's top 32 bits only. *)
Lemma artifact_version_top_bits id1 id2 :
  (uuid_int id1 / 2 ^ 96 = uuid_int id2 / 2 ^ 96)%N ->
  slice_to UUID_SLICE_LENGTH (UUID_str id1)
  = slice_to UUID_SLICE_LENGTH (UUID_str id2).
Proof.
  intros H. rewrite !artifact_version_hex.
  change (16 ^ 24)%N with (2 ^ 96)%N. now rewrite H.
Qed.

Lemma string_length_append s t :
  String.length (s ++ t) = (String.length s + String.length t)%nat.
Proof.
  induction s as [|c s IH]; [reflexivity |].
  rewrite append_cons. simpl. now rewrite IH.
Qed.

(** X8. A name and the same name with the prefix already in front get the
    same endpoint name, although they are different names. *)
Theorem prefixed_and_bare_names_collide (n v : string) :
  startswith n ZENM_ENDPOINT_PREFIX = false ->
  ZENM_ENDPOINT_PREFIX ++ n <> n
  /\ modify_endpoint_name (ZENM_ENDPOINT_PREFIX ++ n) v
     = modify_endpoint_name n v.
Proof.
  intros Hn. split.
  - intros Heq. apply (f_equal String.length) in Heq.
    rewrite string_length_append in Heq. simpl in Heq. lia.
  - rewrite !modify_endpoint_name_eq, Hn.
    now rewrite startswith_append.
Qed.

(** X9. The endpoint name a deployment produces is longer than the
    configured one by the eight characters of the version, and by the
    six of the prefix when the configured name lacks it. *)
Theorem endpoint_name_length (id : UUID) (config0 : HuggingFaceServiceConfig) :
  String.length (endpoint_name (config (new_service id config0)))
  = (String.length (endpoint_name config0) + 8
     + (if startswith (endpoint_name config0) ZENM_ENDPOINT_PREFIX
        then 0 else 6))%nat.
Proof.
  unfold new_service, set_endpoint_name. cbn [config endpoint_name].
  rewrite modify_endpoint_name_eq, string_length_append.
  rewrite artifact_version_hex, hex_fixed_length.
  destruct (startswith (endpoint_name config0) ZENM_ENDPOINT_PREFIX).
  - lia.
  - rewrite string_length_append. simpl. lia.
Qed.

Section Operations.

Variable outcome : Call -> World -> option exn.
Variable ARTIFACT : string.
Variable self : HuggingFaceModelDeployerConfig.

Ltac run_ops :=
  unfold perform, perform_deploy_model, perform_start_model,
    perform_stop_model, perform_delete_model,
    _clean_up_existing_service, _create_new_service,
    bind, ret, extern, prepare_environment_variable, calls_since,
    outcome_result;
  cbn [config uuid set_endpoint_name];
  repeat match goal with
         | |- context [match outcome ?c ?w0 with _ => _ end] =>
             destruct (outcome c w0)
         end;
  cbn [calls environ record_call set_environ fst snd].


(** X2. No operation, on any exit path, touches an environment variable
    other than the two credential variables. *)
Theorem other_variables_untouched (op : Operation) (w : World) (k : string) :
  k <> HF_TOKEN -> k <> HF_NAMESPACE ->
  environ (perform outcome ARTIFACT self op w).2 !! k = environ w !! k.
Proof.
  intros Ht Hn. destruct op; run_ops;
    repeat (rewrite ?lookup_delete_ne, ?lookup_insert_ne by congruence);
    reflexivity.
Qed.


(** X4. [perform_delete_model] leaves the world exactly as
    [perform_stop_model] does with the same arguments, and raises when
    and what it raises. *)
Theorem delete_is_stop
    (service : HuggingFaceDeploymentService) (timeout : Z) (force : bool)
    (w : World) :
  let d := perform_delete_model outcome self service timeout force w in
  let s := perform_stop_model outcome self service timeout force w in
  d.2 = s.2
  /\ match d.1, s.1 with
     | Ok _, Ok _ => True
     | Raise e, Raise e' => e = e'
     | _, _ => False
     end.
Proof.
  intros d s. subst d s.
  unfold perform_delete_model, perform_stop_model,
    _clean_up_existing_service, bind, ret, extern,
    prepare_environment_variable, set_environ.
  cbn [environ calls].
  fold (with_credentials self (environ w)).
  fold (with_credentials self (with_credentials self (environ w))).
  rewrite with_credentials_idem.
  destruct (outcome _ _); cbn [fst snd calls environ record_call].
  - now split.
  - split; [| exact I]. apply World_eq; [| reflexivity]. cbn [environ].
    apply map_eq. intros k. rewrite !lookup_delete.
    repeat case_decide; congruence.
Qed.

Ltac by_run :=
  rewrite create_new_service_run; unfold outcome_result;
  repeat match goal with
         | |- context [match outcome ?c ?w0 with _ => _ end] =>
             destruct (outcome c w0)
         end.

(** X5. In [perform_deploy_model], the artifact store and the hosting
    platform are called with the credentials set, and the telemetry
    read, which comes after the credentials are cleared, without them.
    When the deployment returns, it returns the service that was saved
    and started, the calls were the save, the metadata log, the start
    and the telemetry read, in this order, and the credentials are
    gone. *)
Theorem deploy_telemetry_without_credentials
    (id : UUID) (config0 : HuggingFaceServiceConfig) (timeout : Z)
    (w : World) :
  let run := perform_deploy_model outcome ARTIFACT self id config0 timeout w in
  Forall (fun ce => match ce.1 with
                    | CallStackMetadata => credentials_absent ce.2
                    | _ => credentials_set self ce.2
                    end)
    (calls_since w run.2)
  /\ match run.1 with
     | Ok service =>
         service = new_service id config0
         /\ (calls_since w run.2).*1
            = [save_call ARTIFACT id config0; log_call ARTIFACT id config0;
               start_call id timeout config0; CallStackMetadata]
         /\ credentials_absent (environ run.2)
     | Raise _ => True
     end.
Proof.
  intros run. subst run.
  unfold perform_deploy_model, bind, ret, prepare_environment_variable.
  by_run; unfold extern, outcome_result, calls_since;
    repeat match goal with
           | |- context [match outcome ?c ?w0 with _ => _ end] =>
               destruct (outcome c w0)
           end;
    cbn [calls environ record_call set_environ fst snd];
    rewrite <- ?app_assoc, ?drop_app_length; cbn [app];
    (split;
     [ repeat (constructor; cbn [fst snd save_call log_call start_call];
               try apply with_credentials_set; try apply deleted_absent)
     | try exact I ]).
  split; [reflexivity |]. split; [reflexivity |]. apply deleted_absent.
Qed.


(** X7. Two model UUIDs that agree on their top 32 bits get the same
    artifact version: [_create_new_service] saves both services under
    the same artifact name and version, and for the same configuration
    gives both the same endpoint name. *)
Theorem same_top_bits_same_artifact
    (id1 id2 : UUID) (timeout : Z) (config0 : HuggingFaceServiceConfig)
    (w : World) :
  (uuid_int id1 / 2 ^ 96 = uuid_int id2 / 2 ^ 96)%N ->
  exists version,
    calls_since w
      (_create_new_service outcome ARTIFACT id1 timeout config0 w).2 !! 0%nat
    = Some (CallSaveArtifact (new_service id1 config0) ARTIFACT version true,
            environ w)
    /\ calls_since w
         (_create_new_service outcome ARTIFACT id2 timeout config0 w).2
         !! 0%nat
       = Some (CallSaveArtifact (new_service id2 config0) ARTIFACT version
                 true, environ w)
    /\ config (new_service id1 config0) = config (new_service id2 config0).
Proof.
  intros Htop. pose proof (artifact_version_top_bits id1 id2 Htop) as Hv.
  exists (slice_to UUID_SLICE_LENGTH (UUID_str id1)).
  split; [| split].
  - by_run; unfold calls_since; cbn [snd calls record_call];
      rewrite <- ?app_assoc, drop_app_length; reflexivity.
  - rewrite Hv.
    by_run; unfold calls_since; cbn [snd calls record_call];
      rewrite <- ?app_assoc, drop_app_length; reflexivity.
  - unfold new_service, set_endpoint_name. cbn [config]. now rewrite Hv.
Qed.

(** X10. Deploying again with the configuration of a service a deployment
    returned appends the second version to the name the first
    deployment produced, and changes nothing else in the
    configuration: versions pile up at the end of the name. *)
Theorem redeploy_appends_version
    (id1 id2 : UUID) (timeout1 timeout2 : Z)
    (config0 : HuggingFaceServiceConfig) (w w' : World) :
  match (_create_new_service outcome ARTIFACT id1 timeout1 config0 w).1 with
  | Ok service1 =>
      match (_create_new_service outcome ARTIFACT id2 timeout2
               (config service1) w').1 with
      | Ok service2 =>
          endpoint_name (config service2)
          = endpoint_name (config service1)
              ++ slice_to UUID_SLICE_LENGTH (UUID_str id2)
          /\ endpoint_name (config service2)
             = (if startswith (endpoint_name config0) ZENM_ENDPOINT_PREFIX
                then endpoint_name config0
                else ZENM_ENDPOINT_PREFIX ++ endpoint_name config0)
                 ++ slice_to UUID_SLICE_LENGTH (UUID_str id1)
                 ++ slice_to UUID_SLICE_LENGTH (UUID_str id2)
          /\ settings (config service2) = settings config0
      | Raise _ => True
      end
  | Raise _ => True
  end.
Proof.
  by_run; cbn [fst]; try exact I.
  by_run; cbn [fst]; try exact I.
  unfold new_service, set_endpoint_name. cbn [config endpoint_name settings].
  assert (H : modify_endpoint_name
                (modify_endpoint_name (endpoint_name config0)
                   (slice_to UUID_SLICE_LENGTH (UUID_str id1)))
                (slice_to UUID_SLICE_LENGTH (UUID_str id2))
              = modify_endpoint_name (endpoint_name config0)
                  (slice_to UUID_SLICE_LENGTH (UUID_str id1))
                  ++ slice_to UUID_SLICE_LENGTH (UUID_str id2)).
  { rewrite (modify_endpoint_name_eq (modify_endpoint_name _ _)).
    now rewrite modify_endpoint_name_startswith. }
  split; [exact H |]. split; [| reflexivity].
  rewrite H, modify_endpoint_name_eq. apply append_assoc.
Qed.

End Operations.

Import Examples Scenarios.

Lemma other_variables_untouched_example :
  environ (perform stop_fails "hf_service" deployer
             (Stop service 300%Z false) busy_world).2 !! "PATH"
  = environ busy_world !! "PATH".
Proof.
  apply (other_variables_untouched stop_fails "hf_service" deployer
           (Stop service 300%Z false) busy_world "PATH");
    discriminate.
Defined.


Lemma same_top_bits_same_artifact_example :
  exists version,
    calls_since clean_world
      (_create_new_service all_return "hf_service" model_id 300%Z
         service_config clean_world).2 !! 0%nat
    = Some (CallSaveArtifact (new_service model_id service_config)
              "hf_service" version true, environ clean_world)
    /\ calls_since clean_world
         (_create_new_service all_return "hf_service" sibling_id 300%Z
            service_config clean_world).2 !! 0%nat
       = Some (CallSaveArtifact (new_service sibling_id service_config)
                 "hf_service" version true, environ clean_world)
    /\ config (new_service model_id service_config)
       = config (new_service sibling_id service_config).
Proof.
  apply (same_top_bits_same_artifact all_return "hf_service" model_id
           sibling_id 300%Z service_config clean_world).
  reflexivity.
Defined.

Lemma prefixed_and_bare_names_collide_example :
  ZENM_ENDPOINT_PREFIX ++ "sentiment" <> "sentiment"
  /\ modify_endpoint_name (ZENM_ENDPOINT_PREFIX ++ "sentiment") "123e4567"
     = modify_endpoint_name "sentiment" "123e4567".
Proof.
  apply (prefixed_and_bare_names_collide "sentiment" "123e4567").
  reflexivity.
Defined.

End HuggingFaceOperations.

(** ** The materializer and the artifact store, further properties *)

Module XgboostStore.

Import PyStr PyStrFacts FileSystem Xgboost XgboostFacts.

Lemma last_char_append_sep s : last_char (s ++ "/") = Some "/"%char.
Proof.
  induction s as [|c s IH]; [reflexivity |].
  rewrite append_cons. cbn [last_char]. rewrite IH.
  now destruct (s ++ "/").
Qed.

(** A directory name and the same name with a slash after it are the
    same place to join a file name onto. *)
Lemma os_path_join_trailing_sep d b :
  d <> "" -> ends_with_sep d = false ->
  os_path_join (d ++ "/") b = os_path_join d b.
Proof.
  intros Hd Hsep. unfold os_path_join.
  destruct (startswith b sep); [reflexivity |].
  assert (Hend : ends_with_sep (d ++ "/") = true).
  { unfold ends_with_sep. now rewrite last_char_append_sep. }
  rewrite Hend, orb_true_r, Hsep, orb_false_r.
  destruct d as [|c d]; [now destruct Hd |].
  cbn [String.length Nat.eqb]. apply append_assoc.
Qed.

(** Removing a directory that is not there, with nothing inside it,
    changes nothing. *)
Lemma rmtree_fresh d fs :
  map_Forall (fun p _ => inside d p = false) (files fs) ->
  set_Forall (fun p => p <> d /\ inside d p = false) (dirs fs) ->
  rmtree d fs = fs.
Proof.
  intros Hfiles Hdirs. apply FS_eq; unfold rmtree; cbn [files dirs].
  - apply map_filter_id. intros k v Hk. cbn [fst]. exact (Hfiles k v Hk).
  - apply set_eq. intros p. rewrite elem_of_filter. split.
    + now intros [_ Hp].
    + intros Hp. split; [exact (Hdirs p Hp) | exact Hp].
Qed.

Lemma unlink_fresh p fs : files fs !! p = None -> unlink p fs = fs.
Proof.
  intros Hp. apply FS_eq; [| reflexivity]. unfold unlink. cbn [files].
  now apply delete_id.
Qed.

Section Store.

Variable Booster : Type.
Variable xgb_save_model : Booster -> result bytes.
Variable xgb_load_model : bytes -> result Booster.
Variable mkstemp : string -> FS -> string.
Variable mkdtemp : string -> FS -> string.
Variable copy_fault : string -> string -> FS -> option exn.
Variable uri : string.

(** X11. [load] reads: when the temporary directory it is given is new (no
    directory of that name, nothing inside it), the file system after
    [load] is the file system before it, whether [load] returned a
    booster or raised. *)
Theorem load_leaves_file_system (fs : FS) :
  let temp_dir := mkdtemp "zenml-temp-" fs in
  map_Forall (fun p _ => inside temp_dir p = false) (files fs) ->
  set_Forall (fun p => p <> temp_dir /\ inside temp_dir p = false)
    (dirs fs) ->
  (load xgb_load_model mkdtemp copy_fault uri fs).2 = fs.
Proof.
  intros temp_dir Hfiles Hdirs. rewrite load_run. cbn [snd].
  now apply rmtree_fresh.
Qed.

(** X12. A [save] that meets no error changes one thing: with a temporary
    file name that is new and is not the artifact's, the file system
    afterwards is the one before with [model.json] inside the URI
    directory holding what the native library wrote. *)
Theorem save_writes_one_file
    (booster : Booster) (content : bytes) (fs : FS) :
  let filepath := os_path_join uri DEFAULT_FILENAME in
  let f_name := mkstemp ".json" fs in
  xgb_save_model booster = Ok content ->
  copy_fault f_name filepath
    (write_file f_name content (write_file f_name [] fs)) = None ->
  files fs !! f_name = None ->
  f_name <> filepath ->
  save xgb_save_model mkstemp copy_fault uri booster fs
  = (Ok tt, write_file filepath content fs).
Proof.
  intros filepath f_name Hsave Hcopy Hfresh Hne.
  rewrite save_run. fold filepath f_name. rewrite Hsave. cbv zeta.
  rewrite Hcopy. f_equal.
  apply FS_eq; [| reflexivity]. unfold unlink, write_file. cbn [files].
  rewrite delete_insert_ne by exact Hne.
  rewrite !delete_insert_eq. now rewrite delete_id.
Qed.

(** X13. When the native library cannot write the booster, [save] raises
    the library's exception and, the temporary file name being new,
    leaves the file system as it was: nothing reaches the artifact
    store. *)
Theorem failed_serialization_leaves_store
    (booster : Booster) (e : exn) (fs : FS) :
  xgb_save_model booster = Raise e ->
  files fs !! mkstemp ".json" fs = None ->
  save xgb_save_model mkstemp copy_fault uri booster fs = (Raise e, fs).
Proof.
  intros Hsave Hfresh. rewrite save_run, Hsave. f_equal.
  transitivity (unlink (mkstemp ".json" fs) fs);
    [| now apply unlink_fresh].
  apply FS_eq; [| reflexivity]. unfold unlink, write_file. cbn [files].
  apply delete_insert_eq.
Qed.

(** X14. A URI and the same URI followed by a slash name the same artifact:
    [load] and [save] do the same with either. *)
Theorem uri_trailing_slash (booster : Booster) (fs : FS) :
  uri <> "" -> ends_with_sep uri = false ->
  load xgb_load_model mkdtemp copy_fault (uri ++ "/") fs
  = load xgb_load_model mkdtemp copy_fault uri fs
  /\ save xgb_save_model mkstemp copy_fault (uri ++ "/") booster fs
     = save xgb_save_model mkstemp copy_fault uri booster fs.
Proof.
  intros Huri Hsep. unfold load, save.
  now rewrite (os_path_join_trailing_sep uri DEFAULT_FILENAME Huri Hsep).
Qed.

End Store.

Import Examples Scenarios.

Lemma load_leaves_file_system_example :
  (load xgb_load_model mkdtemp no_fault uri store).2 = store.
Proof.
  apply (load_leaves_file_system Examples.Booster xgb_load_model mkdtemp
           no_fault uri store).
  - refine (bool_decide_unpack _ _). vm_compute. exact I.
  - refine (bool_decide_unpack _ _). vm_compute. exact I.
Defined.

Lemma save_writes_one_file_example :
  save xgb_save_model mkstemp no_fault uri booster store
  = (Ok tt, write_file (os_path_join uri DEFAULT_FILENAME) booster store).
Proof.
  apply (save_writes_one_file Examples.Booster xgb_save_model mkstemp
           no_fault uri booster booster store).
  - reflexivity.
  - reflexivity.
  - reflexivity.
  - vm_compute. discriminate.
Defined.

Lemma failed_serialization_leaves_store_example :
  save save_model_fails mkstemp no_fault uri booster store
  = (Raise (Exn "XGBoostError" "cannot serialize"), store).
Proof.
  apply (failed_serialization_leaves_store Examples.Booster
           save_model_fails mkstemp no_fault uri booster
           (Exn "XGBoostError" "cannot serialize") store);
    reflexivity.
Defined.

Lemma uri_trailing_slash_example :
  load xgb_load_model mkdtemp no_fault (uri ++ "/") store
  = load xgb_load_model mkdtemp no_fault uri store
  /\ save xgb_save_model mkstemp no_fault (uri ++ "/") booster store
     = save xgb_save_model mkstemp no_fault uri booster store.
Proof.
  apply (uri_trailing_slash Examples.Booster xgb_save_model xgb_load_model
           mkstemp mkdtemp no_fault uri booster store).
  - discriminate.
  - reflexivity.
Defined.

End XgboostStore.

(** ** The datasource's source path, further properties *)

Module TFRecordsPaths.

Import PyStr PyStrFacts FileSystem TFRecords.

Lemma split_sep_nonempty s : split_sep s <> [].
Proof.
  destruct s as [|c s]; cbn [split_sep]; [discriminate |].
  destruct (ascii_dec c "/"); [discriminate |].
  now destruct (split_sep s).
Qed.

(** Splitting at separators splits at the one in the middle. *)
Lemma split_sep_app a b :
  split_sep (a ++ "/" ++ b) = (split_sep a ++ split_sep b)%list.
Proof.
  induction a as [|c a IH]; [reflexivity |].
  rewrite append_cons. cbn [split_sep]. rewrite IH.
  destruct (ascii_dec c "/"); [reflexivity |].
  destruct (split_sep a) as [|h t] eqn:Ha; [| reflexivity].
  now destruct (split_sep_nonempty a).
Qed.

Lemma normalize_app xs ys :
  normalize (xs ++ ys)
  = rev (fold_left resolve_step ys (fold_left resolve_step xs [])).
Proof. unfold normalize. now rewrite fold_left_app. Qed.

(** A component that resolution drops, at the end of a path. *)
Lemma normalize_dropped xs c :
  String.eqb c "" || String.eqb c "." = true ->
  normalize (xs ++ [c]) = normalize xs.
Proof.
  intros Hc. rewrite normalize_app. cbn [fold_left].
  unfold resolve_step at 1. now rewrite Hc.
Qed.

Lemma startswith_sep_append p q :
  p <> "" -> startswith (p ++ q) "/" = startswith p "/".
Proof.
  intros Hp. destruct p as [|c p]; [now destruct Hp |].
  rewrite append_cons. unfold startswith. cbn [String.prefix].
  destruct (ascii_dec "/" c); [| reflexivity].
  destruct (p ++ q); now destruct p.
Qed.

Lemma resolve_dropped cwd p c :
  p <> "" -> split_sep c = [c] ->
  String.eqb c "" || String.eqb c "." = true ->
  resolve cwd (p ++ "/" ++ c) = resolve cwd p.
Proof.
  intros Hp Hsplit Hc. unfold resolve.
  rewrite (startswith_sep_append p ("/" ++ c) Hp), split_sep_app, Hsplit.
  destruct (startswith p "/").
  - now rewrite normalize_dropped.
  - now rewrite app_assoc, normalize_dropped.
Qed.




(** X15. The directory [process] copies from does not change when the
    configured path is written with a slash or with a slash and a dot
    at its end: the datasource copies the same directory to the same
    place. *)
Theorem path_spelling
    (cwd name0 p : string) (schema0 : option (list (string * string)))
    (output_path : string) (fs : FS) :
  p <> "" ->
  resolve cwd (p ++ "/") = resolve cwd p
  /\ resolve cwd (p ++ "/.") = resolve cwd p
  /\ process cwd (__init__ name0 (p ++ "/") schema0) output_path fs
     = process cwd (__init__ name0 p schema0) output_path fs
  /\ process cwd (__init__ name0 (p ++ "/.") schema0) output_path fs
     = process cwd (__init__ name0 p schema0) output_path fs.
Proof.
  intros Hp.
  assert (H1 : resolve cwd (p ++ "/") = resolve cwd p)
    by (apply (resolve_dropped cwd p "" Hp); reflexivity).
  assert (H2 : resolve cwd (p ++ "/.") = resolve cwd p)
    by (apply (resolve_dropped cwd p "." Hp); reflexivity).
  split; [exact H1 |]. split; [exact H2 |].
  unfold process, __init__. cbn [path]. now rewrite H1, H2.
Qed.


Import Examples.

Lemma path_spelling_example :
  resolve "/home/u" ("data/../recs" ++ "/") = resolve "/home/u" "data/../recs"
  /\ resolve "/home/u" ("data/../recs" ++ "/.")
     = resolve "/home/u" "data/../recs"
  /\ process "/home/u" (__init__ "records" ("data/../recs" ++ "/") None)
       "/out" disk
     = process "/home/u" (__init__ "records" "data/../recs" None) "/out" disk
  /\ process "/home/u" (__init__ "records" ("data/../recs" ++ "/.") None)
       "/out" disk
     = process "/home/u" (__init__ "records" "data/../recs" None) "/out" disk.
Proof.
  apply (path_spelling "/home/u" "records" "data/../recs" None "/out" disk).
  discriminate.
Defined.

End TFRecordsPaths.
